(** * starlette_exporter: the packaging script and the package it describes

    The repository's source is [setup.py], a script that hands the
    distribution's metadata to [setuptools.setup].  Part I embeds that script:
    Python's expressions and statements become computations in a small
    interpreter monad [Py] that threads the module's global namespace and a
    log of everything the script does to the outside (imports, file opens,
    reads, calls of imported functions), and that can end in an exception.

    Part II models the package the script describes, [starlette_exporter]
    itself, whose code is not part of the source tree at hand. *)

From stdpp Require Import gmap strings list.
From Stdlib Require Import ZArith.

Local Open Scope string_scope.
Local Open Scope list_scope.
Set Warnings "-register-all".

(** The outcome of a computation that may raise. *)
Inductive result (E A : Type) : Type :=
| Ok (a : A)
| Raise (e : E).
Arguments Ok {E A} a.
Arguments Raise {E A} e.

(** ** Part I. setup.py *)

Module Packaging.

(** Python objects the script can hold.  [VBuiltin] is a callable that comes
    from outside the module (a builtin, or a name imported from a library);
    [VFunction] and [VClass] are objects a module creates itself with [def]
    and [class]. *)
Inductive value : Type :=
| VNone
| VStr (s : string)
| VList (elts : list value)
| VDict (items : list (value * value))
| VBuiltin (qualname : string)
| VFile (path : string) (content : string)
| VFunction (name : string)
| VClass (name : string).

Inductive exn : Type :=
| FileNotFoundError (path : string)
| PermissionError (path : string)
| NameError (id : string)
| TypeError (what : string)
| AttributeError (attr : string).

(** The file system as the script sees it from its working directory: a
    path is absent, present but not readable, or a text file. *)
Inductive file_entry : Type :=
| Text (content : string)
| Denied.

Record World : Type := { files : string -> option file_entry }.

(** A working directory that holds nothing, and one that holds one entry. *)
Definition no_files : World := {| files := fun _ => None |}.

Definition only_file (name : string) (entry : file_entry) : World :=
  {| files := fun path => if String.eqb path name then Some entry else None |}.

(** A working directory with a README.md and more besides. *)
Definition crowded (readme : string) : World :=
  {| files := fun path =>
       if String.eqb path "README.md" then Some (Text readme)
       else if String.eqb path "LICENSE" then Some Denied
       else Some (Text "") |}.

(** What the script does to the outside, in order. *)
Inductive event : Type :=
| Imported (module name : string)
| Opened (path : string)
| ReadAll (path : string)
| Called (qualname : string) (args : list value)
         (kwargs : list (string * value)).

Record Interp : Type := {
  globals : gmap string value;
  trace : list event
}.

Definition Py (A : Type) : Type := World -> Interp -> Interp * result exn A.

Definition ret {A} (a : A) : Py A := fun _ st => (st, Ok a).

Definition bind {A B} (m : Py A) (k : A -> Py B) : Py B :=
  fun w st =>
    match m w st with
    | (st', Ok a) => k a w st'
    | (st', Raise e) => (st', Raise e)
    end.

Definition raise {A} (e : exn) : Py A := fun _ st => (st, Raise e).

Definition emit (ev : event) : Py unit :=
  fun _ st => ({| globals := globals st; trace := trace st ++ [ev] |}, Ok tt).

Definition store_name (id : string) (v : value) : Py unit :=
  fun _ st => ({| globals := <[id := v]> (globals st); trace := trace st |}, Ok tt).

Definition stat (path : string) : Py (option file_entry) :=
  fun w st => (st, Ok (files w path)).

#[export] Instance Py_ret : MRet Py := @ret.
#[export] Instance Py_bind : MBind Py := fun A B k m => bind m k.

(** The builtins namespace, as far as the script reaches into it. *)
Definition builtins : gmap string value := {[ "open" := VBuiltin "open" ]}.

Definition load_name (id : string) : Py value :=
  fun w st =>
    match globals st !! id with
    | Some v => (st, Ok v)
    | None =>
        match builtins !! id with
        | Some v => (st, Ok v)
        | None => (st, Raise (NameError id))
        end
    end.

(** [open(path)] in the default mode (read, text). *)
Definition py_open (path : string) : Py value :=
  emit (Opened path);;
  entry ← stat path;
  match entry with
  | Some (Text content) => ret (VFile path content)
  | Some Denied => raise (PermissionError path)
  | None => raise (FileNotFoundError path)
  end.

(** [f.read()]: the text of the file, all of it.  What that text is, for
    given bytes on disk, is settled where the process's view of its working
    directory is built ([text_view] below). *)
Definition py_read (path content : string) : Py value :=
  emit (ReadAll path);; ret (VStr content).

(** Calling an object.  [open] is interpreted; any other callable from
    outside the module is a call out, logged with its arguments, that
    returns [None]. *)
Definition apply_callable (f : value) (args : list value)
    (kwargs : list (string * value)) : Py value :=
  match f with
  | VBuiltin q =>
      if String.eqb q "open" then
        match args, kwargs with
        | [VStr path], [] => py_open path
        | _, _ => raise (TypeError "open")
        end
      else emit (Called q args kwargs);; ret VNone
  | _ => raise (TypeError "object is not callable")
  end.

Definition apply_method (obj : value) (attr : string) (args : list value)
    : Py value :=
  match obj with
  | VFile path content =>
      if String.eqb attr "read" then
        match args with
        | [] => py_read path content
        | _ => raise (TypeError "read")
        end
      else raise (AttributeError attr)
  | _ => raise (AttributeError attr)
  end.

(** *** Expressions and statements

    An expression is a computation of a value; the combinators below are
    named after the Python syntax they stand for and fix its evaluation
    order (left to right; the callee before its arguments, positional
    arguments before keyword arguments). *)
Definition Expr : Type := Py value.

Definition Str (s : string) : Expr := ret (VStr s).

Definition Name (id : string) : Expr := load_name id.

Fixpoint eval_list (es : list Expr) : Py (list value) :=
  match es with
  | [] => ret []
  | e :: es' => v ← e; vs ← eval_list es'; ret (v :: vs)
  end.

Fixpoint eval_items (items : list (Expr * Expr)) : Py (list (value * value)) :=
  match items with
  | [] => ret []
  | (k, e) :: items' =>
      kv ← k; v ← e; rest ← eval_items items'; ret ((kv, v) :: rest)
  end.

Fixpoint eval_keywords (kws : list (string * Expr))
    : Py (list (string * value)) :=
  match kws with
  | [] => ret []
  | (k, e) :: kws' =>
      v ← e; rest ← eval_keywords kws'; ret ((k, v) :: rest)
  end.

Definition List (elts : list Expr) : Expr :=
  vs ← eval_list elts; ret (VList vs).

Definition Dict (items : list (Expr * Expr)) : Expr :=
  kvs ← eval_items items; ret (VDict kvs).

Definition Call (func : Expr) (args : list Expr)
    (keywords : list (string * Expr)) : Expr :=
  f ← func;
  a ← eval_list args;
  k ← eval_keywords keywords;
  apply_callable f a k.

Definition MethodCall (obj : Expr) (attr : string) (args : list Expr) : Expr :=
  o ← obj;
  a ← eval_list args;
  apply_method o attr a.

Definition Stmt : Type := Py unit.

(** [from module import name] *)
Definition ImportFrom (module name : string) : Stmt :=
  emit (Imported module name);;
  store_name name (VBuiltin (module +:+ "." +:+ name)).

(** An expression statement: the value is dropped. *)
Definition ExprStmt (e : Expr) : Stmt := e;; ret tt.

(** [def name(...): ...] and [class name: ...] bind a new object of the
    module's own. *)
Definition FunctionDef (name : string) : Stmt := store_name name (VFunction name).
Definition ClassDef (name : string) : Stmt := store_name name (VClass name).

(** *** The script *)
Definition setup_py : Stmt :=
  ImportFrom "setuptools" "setup";;
  ExprStmt (Call (Name "setup") []
    [ ("name", Str "starlette_exporter");
      ("version", Str "0.14.0");
      ("author", Str "Stephen Hillier");
      ("author_email", Str "stephenhillier@gmail.com");
      ("packages", List [Str "starlette_exporter"]);
      ("package_data",
        Dict [(Str "starlette_exporter", List [Str "py.typed"])]);
      ("license", Str "Apache License 2.0");
      ("url", Str "https://github.com/stephenhillier/starlette_exporter");
      ("description",
        Str "Prometheus metrics exporter for Starlette applications.");
      ("long_description",
        MethodCall (Call (Name "open") [Str "README.md"] []) "read" []);
      ("long_description_content_type", Str "text/markdown");
      ("install_requires", List [Str "prometheus_client"; Str "starlette"]) ]).

(** Running a module: an empty namespace, nothing done yet. *)
Definition run (m : Stmt) (w : World) : Interp * result exn unit :=
  m w {| globals := ∅; trace := [] |}.

(** *** Observations on a run *)

Definition is_call (ev : event) : bool :=
  match ev with
  | Called _ _ _ => true
  | _ => false
  end.

(** The positional and keyword arguments of each call of
    [setuptools.setup], in order. *)
Fixpoint setup_calls_of (tr : list event)
    : list (list value * list (string * value)) :=
  match tr with
  | [] => []
  | Called q args kwargs :: tr' =>
      if String.eqb q "setuptools.setup"
      then (args, kwargs) :: setup_calls_of tr'
      else setup_calls_of tr'
  | _ :: tr' => setup_calls_of tr'
  end.

Definition setup_calls (w : World) : list (list value * list (string * value)) :=
  setup_calls_of (trace (run setup_py w).1).

Definition outcome (w : World) : result exn unit := (run setup_py w).2.

Fixpoint kw_lookup (k : string) (kwargs : list (string * value))
    : option value :=
  match kwargs with
  | [] => None
  | (k', v) :: rest => if String.eqb k' k then Some v else kw_lookup k rest
  end.

Definition defined_by_module (v : value) : bool :=
  match v with
  | VFunction _ | VClass _ => true
  | _ => false
  end.

(** The keywords of [setuptools.setup] that declare dependencies, and the
    ones among them that a call passes. *)
Definition dependency_keywords : list string :=
  ["install_requires"; "setup_requires"; "tests_require"; "extras_require"].

Definition declared_dependencies (kwargs : list (string * value))
    : list (string * value) :=
  omap (fun k => pair k <$> kw_lookup k kwargs) dependency_keywords.

(** The executables a call asks [setuptools] to install: the files under
    [scripts] and the [console_scripts] group of [entry_points]. *)
Definition console_scripts_group (item : value * value) : list value :=
  match item with
  | (VStr group, VList entries) =>
      if String.eqb group "console_scripts" then entries else []
  | _ => []
  end.

Definition declared_scripts (kwargs : list (string * value)) : list value :=
  match kw_lookup "scripts" kwargs with
  | Some (VList fs) => fs
  | _ => []
  end ++
  match kw_lookup "entry_points" kwargs with
  | Some (VDict groups) => concat (map console_scripts_group groups)
  | _ => []
  end.

(** The two external collaborators the specification names, and the
    distribution each one is published as. *)
Inductive collaborator : Type :=
| MetricsClientLibrary
| HostWebFramework.

Definition distribution_of (c : collaborator) : string :=
  match c with
  | MetricsClientLibrary => "prometheus_client"
  | HostWebFramework => "starlette"
  end.

(** The keyword arguments of the script's call, with the text read from
    README.md in its place. *)
Definition metadata (long_description : string) : list (string * value) :=
  [ ("name", VStr "starlette_exporter");
    ("version", VStr "0.14.0");
    ("author", VStr "Stephen Hillier");
    ("author_email", VStr "stephenhillier@gmail.com");
    ("packages", VList [VStr "starlette_exporter"]);
    ("package_data",
      VDict [(VStr "starlette_exporter", VList [VStr "py.typed"])]);
    ("license", VStr "Apache License 2.0");
    ("url", VStr "https://github.com/stephenhillier/starlette_exporter");
    ("description",
      VStr "Prometheus metrics exporter for Starlette applications.");
    ("long_description", VStr long_description);
    ("long_description_content_type", VStr "text/markdown");
    ("install_requires", VList [VStr "prometheus_client"; VStr "starlette"]) ].

(** Whether [open(path)] succeeds in a working directory. *)
Definition readable (w : World) (path : string) : bool :=
  match files w path with
  | Some (Text _) => true
  | _ => false
  end.

(** The paths a run tried to open, and the ones it read, in order. *)
Definition opened_paths (tr : list event) : list string :=
  omap (fun ev => match ev with Opened path => Some path | _ => None end) tr.

Definition read_paths (tr : list event) : list string :=
  omap (fun ev => match ev with ReadAll path => Some path | _ => None end) tr.

(** The packages a call lists under [packages], and the packages it gives
    data files for under [package_data], with the files of each. *)
Definition declared_packages (kwargs : list (string * value)) : list value :=
  match kw_lookup "packages" kwargs with
  | Some (VList ps) => ps
  | _ => []
  end.

Definition package_data_items (kwargs : list (string * value))
    : list (value * value) :=
  match kw_lookup "package_data" kwargs with
  | Some (VDict items) => items
  | _ => []
  end.

(** *** From the bytes of a file to its text

    The script gives [open] no encoding and no newline mode, so what
    [read()] returns is the file's bytes decoded with the encoding of the
    process's locale, every line ending (CR LF, CR) turned into LF.  The
    [Text] of a [World] is that text.  A Python [str] is held as the Rocq
    string of its UTF-8 bytes, which is what the script's own literals are.
    The encodings below are two single-byte ones that decode every byte,
    ISO 8859-1 and ISO 8859-15; they differ at eight bytes. *)
Inductive codec : Type :=
| Latin1
| Latin9.

Definition decode_byte (enc : codec) (b : N) : N :=
  match enc with
  | Latin1 => b
  | Latin9 =>
      if N.eqb b 164 then 8364       (* A4: euro sign *)
      else if N.eqb b 166 then 352   (* A6: S caron *)
      else if N.eqb b 168 then 353   (* A8: s caron *)
      else if N.eqb b 180 then 381   (* B4: Z caron *)
      else if N.eqb b 184 then 382   (* B8: z caron *)
      else if N.eqb b 188 then 338   (* BC: OE *)
      else if N.eqb b 189 then 339   (* BD: oe *)
      else if N.eqb b 190 then 376   (* BE: Y diaeresis *)
      else b
  end%N.

Fixpoint universal_newlines (cps : list N) : list N :=
  match cps with
  | [] => []
  | c :: rest =>
      if N.eqb c 13 then
        10%N ::
        match rest with
        | c' :: rest' =>
            if N.eqb c' 10 then universal_newlines rest'
            else universal_newlines rest
        | [] => []
        end
      else c :: universal_newlines rest
  end.

Definition utf8_encode (cp : N) : list N :=
  (if cp <? 128 then [cp]
   else if cp <? 2048 then [192 + cp / 64; 128 + cp mod 64]
   else if cp <? 65536 then
     [224 + cp / 4096; 128 + (cp / 64) mod 64; 128 + cp mod 64]
   else
     [240 + cp / 262144; 128 + (cp / 4096) mod 64;
      128 + (cp / 64) mod 64; 128 + cp mod 64])%N.

Definition py_str (cps : list N) : string :=
  String.string_of_list_ascii (Ascii.ascii_of_N <$> concat (utf8_encode <$> cps)).

Definition read_text (enc : codec) (bytes : list N) : string :=
  py_str (universal_newlines (decode_byte enc <$> bytes)).

(** The process that runs the script: the bytes on disk under its working
    directory, and its locale's encoding. *)
Inductive disk_entry : Type :=
| Bytes (content : list N)
| NoAccess.

Record Process : Type := {
  disk : string -> option disk_entry;
  encoding : codec
}.

(** The working directory as [open] and [read] show it to that process. *)
Definition text_view (p : Process) : World :=
  {| files := fun path =>
       match disk p path with
       | Some (Bytes content) => Some (Text (read_text (encoding p) content))
       | Some NoAccess => Some Denied
       | None => None
       end |}.

Definition readme_only (enc : codec) (bytes : list N) : Process :=
  {| disk := fun path =>
       if String.eqb path "README.md" then Some (Bytes bytes) else None;
     encoding := enc |}.

End Packaging.

(** ** Part II. The package [starlette_exporter]

    [setup.py] names the package but its modules are not in the source tree.
    The model below follows the specification's description of them. *)

Module Exporter.

Record Request : Type := {
  method : string;
  route : string
}.

Inductive content : Type :=
| TextContent (text : string)
| BinaryContent (bytes : list N).

Record Response : Type := {
  status_code : nat;
  body : content
}.

(** A metric's label set: the request's method and route and the response's
    status. *)
Definition labels : Type := string * string * nat.

Definition labels_of (request : Request) (response : Response) : labels :=
  (method request, route request, status_code response).

(** Modelled from the spec: the metrics client library, an external
    collaborator whose code is absent.  All the spec says of its state is
    that it holds counter and histogram values per label set; a counter is
    the number of increments, a histogram the observations in order. *)
Record Registry : Type := {
  counters : gmap labels nat;
  histograms : gmap labels (list Z)
}.

Definition counter_value (l : labels) (r : Registry) : nat :=
  default 0 (counters r !! l).

Definition observations (l : labels) (r : Registry) : list Z :=
  default [] (histograms r !! l).

Definition inc (l : labels) (r : Registry) : Registry :=
  {| counters := <[l := S (counter_value l r)]> (counters r);
     histograms := histograms r |}.

Definition observe (l : labels) (v : Z) (r : Registry) : Registry :=
  {| counters := counters r;
     histograms := <[l := (observations l r ++ [v])%list]> (histograms r) |}.

(** The calls into the metrics library, in order. *)
Inductive api_call : Type :=
| CounterInc (l : labels)
| HistogramObserve (l : labels) (v : Z)
| GenerateLatest.

(** The host process while it serves requests: its clock (in ticks), the
    metrics library's state, and the log of calls into the library. *)
Record Host : Type := {
  clock : Z;
  registry : Registry;
  api_calls : list api_call
}.

Section Model.

(** The exceptions belong to the host framework and its handlers; the
    package adds none, so the model is generic in them. *)
Context {Exn : Type}.

(** Modelled from the spec: the library's exposition-format renderer, taken
    as it comes. *)
Variable generate_latest : Registry -> string.

Definition App (A : Type) : Type := Host -> Host * result Exn A.

#[local] Instance App_ret : MRet App := fun A a st => (st, Ok a).

#[local] Instance App_bind : MBind App := fun A B k m st =>
  match m st with
  | (st', Ok a) => k a st'
  | (st', Raise e) => (st', Raise e)
  end.

(** What the host framework calls to get a response: a route's endpoint,
    or the rest of the pipeline below a middleware. *)
Definition Handler : Type := Request -> App Response.

Definition perf_counter : App Z := fun st => (st, Ok (clock st)).

Definition counter_inc (l : labels) : App unit := fun st =>
  ({| clock := clock st;
      registry := inc l (registry st);
      api_calls := api_calls st ++ [CounterInc l] |}, Ok tt).

Definition histogram_observe (l : labels) (v : Z) : App unit := fun st =>
  ({| clock := clock st;
      registry := observe l v (registry st);
      api_calls := api_calls st ++ [HistogramObserve l v] |}, Ok tt).

Definition render_latest : App string := fun st =>
  ({| clock := clock st;
      registry := registry st;
      api_calls := api_calls st ++ [GenerateLatest] |},
   Ok (generate_latest (registry st))).

(** Modelled from the spec: the middleware, absent from the source tree.
    "On each incoming request, record start time; on response, compute
    elapsed time and call a pre-existing library API to update a counter
    and a histogram keyed by method/route/status."  A failure of the
    downstream handler is not caught: it passes through. *)
Definition dispatch (call_next : Handler) : Handler := fun request =>
  start ← perf_counter;
  response ← call_next request;
  finish ← perf_counter;
  let l := labels_of request response in
  counter_inc l;;
  histogram_observe l (finish - start)%Z;;
  mret response.

(** Modelled from the spec: the request handler of the metrics endpoint,
    absent from the source tree.  "On a dedicated path, call the library's
    exposition-format renderer and return its output as the response
    body"; the response is "a 200 response with text content". *)
Definition handle_metrics : Handler := fun _ =>
  text ← render_latest;
  mret {| status_code := 200; body := TextContent text |}.

(** Modelled from the spec: the host web framework, an external
    collaborator, reduced to its "standard middleware-registration and
    route-registration mechanisms": a table of routes and a stack of
    middleware, the one registered last outermost. *)
Record Application : Type := {
  routes : gmap string Handler;
  middleware : list (Handler -> Handler)
}.

Definition add_route (path : string) (endpoint : Handler)
    (app : Application) : Application :=
  {| routes := <[path := endpoint]> (routes app);
     middleware := middleware app |}.

Definition add_middleware (mw : Handler -> Handler)
    (app : Application) : Application :=
  {| routes := routes app;
     middleware := mw :: middleware app |}.

Definition not_found : Response :=
  {| status_code := 404; body := TextContent "Not Found" |}.

Definition router (app : Application) : Handler := fun request =>
  match routes app !! route request with
  | Some endpoint => endpoint request
  | None => mret not_found
  end.

Definition serve (app : Application) : Handler :=
  foldr (fun mw next => mw next) (router app) (middleware app).

(** Installing the package into an application: the middleware and the
    metrics endpoint on its dedicated path. *)
Definition install (metrics_path : string) (app : Application)
    : Application :=
  add_middleware dispatch (add_route metrics_path handle_metrics app).



(** Modelled from the spec: what the installed package exposes, "a
    middleware class and a request handler function", and the host
    consuming each through the mechanism that fits it. *)
Inductive export : Type :=
| MiddlewareClass (mw : Handler -> Handler)
| HandlerFunction (endpoint : Handler).

Definition package_exports : list export :=
  [MiddlewareClass dispatch; HandlerFunction handle_metrics].

Definition consume (path : string) (x : export) (app : Application)
    : Application :=
  match x with
  | MiddlewareClass mw => add_middleware mw app
  | HandlerFunction endpoint => add_route path endpoint app
  end.

End Model.

(** *** A small host to run the model on

    Its handlers raise strings; [hello] takes three ticks to answer,
    [broken] fails after one. *)
Definition idle : Host :=
  {| clock := 0;
     registry := {| counters := ∅; histograms := ∅ |};
     api_calls := [] |}.

Definition elapse (ticks : Z) (st : Host) : Host :=
  {| clock := clock st + ticks;
     registry := registry st;
     api_calls := api_calls st |}.

Definition hello_response : Response :=
  {| status_code := 200; body := TextContent "hello" |}.

Definition hello : @Handler string :=
  fun _ st => (elapse 3 st, Ok hello_response).

Definition broken : @Handler string :=
  fun _ st => (elapse 1 st, Raise "boom").

Definition sample_app : @Application string :=
  {| routes := {[ "/hello" := hello; "/broken" := broken ]};
     middleware := [] |}.

Definition sample_render (r : Registry) : string :=
  if Nat.eqb (size (counters r)) 0 then "" else "requests_total".

Definition get_hello : Request := {| method := "GET"; route := "/hello" |}.
Definition get_broken : Request := {| method := "GET"; route := "/broken" |}.
Definition get_metrics : Request := {| method := "GET"; route := "/metrics" |}.




End Exporter.

(** ** Facts about setup.py *)

Import Packaging.

(** The whole run of the script, by what README.md is in the working
    directory. *)
Lemma run_setup_py (w : World) :
  run setup_py w =
  match files w "README.md" with
  | Some (Text c) =>
      ({| globals := {[ "setup" := VBuiltin "setuptools.setup" ]};
          trace := [Imported "setuptools" "setup"; Opened "README.md";
                    ReadAll "README.md";
                    Called "setuptools.setup" [] (metadata c)] |}, Ok tt)
  | Some Denied =>
      ({| globals := {[ "setup" := VBuiltin "setuptools.setup" ]};
          trace := [Imported "setuptools" "setup"; Opened "README.md"] |},
       Raise (PermissionError "README.md"))
  | None =>
      ({| globals := {[ "setup" := VBuiltin "setuptools.setup" ]};
          trace := [Imported "setuptools" "setup"; Opened "README.md"] |},
       Raise (FileNotFoundError "README.md"))
  end.
Proof.
  destruct w as [fs]. vm_compute.
  destruct (fs "README.md") as [[c|]|]; reflexivity.
Qed.

Example run_with_readme :
  setup_calls (crowded "Prometheus exporter") =
  [([], metadata "Prometheus exporter")].
Proof. vm_compute. reflexivity. Qed.

Example run_with_unreadable_readme :
  run setup_py (only_file "README.md" Denied) =
  ({| globals := {[ "setup" := VBuiltin "setuptools.setup" ]};
      trace := [Imported "setuptools" "setup"; Opened "README.md"] |},
   Raise (PermissionError "README.md")).
Proof. vm_compute. reflexivity. Qed.

(** A module that does define a function or a class shows it in its
    namespace. *)
Example def_and_class_are_seen :
  defined_by_module <$>
    globals (run (FunctionDef "handler";; ClassDef "Middleware") no_files).1 =
  {[ "handler" := true; "Middleware" := true ]}.
Proof. vm_compute. reflexivity. Qed.

Lemma setup_calls_readable (w : World) (c : string) :
  files w "README.md" = Some (Text c) ->
  setup_calls w = [([], metadata c)].
Proof.
  intros Hc. unfold setup_calls. rewrite run_setup_py, Hc. reflexivity.
Qed.

Lemma setup_calls_unreadable (w : World) :
  (forall c, files w "README.md" <> Some (Text c)) ->
  setup_calls w = [].
Proof.
  intros Hno. unfold setup_calls. rewrite run_setup_py.
  destruct (files w "README.md") as [[c|]|]; try reflexivity.
  now destruct (Hno c).
Qed.

(** Whatever the working directory holds, a call of [setup] that happens
    carries the metadata, with some text as the long description. *)
Lemma setup_call_inv (w : World) (args : list value)
    (kwargs : list (string * value)) :
  (args, kwargs) ∈ setup_calls w ->
  exists c, files w "README.md" = Some (Text c) /\
            args = [] /\ kwargs = metadata c.
Proof.
  unfold setup_calls. rewrite run_setup_py.
  destruct (files w "README.md") as [[c|]|]; cbn; intros Hin.
  - apply list_elem_of_singleton in Hin. injection Hin as -> ->. eauto.
  - inversion Hin.
  - inversion Hin.
Qed.

Lemma globals_after_run (w : World) :
  globals (run setup_py w).1 = {[ "setup" := VBuiltin "setuptools.setup" ]}.
Proof.
  rewrite run_setup_py. now destruct (files w "README.md") as [[c|]|].
Qed.

(** [open] logs the attempt and succeeds on a text file only. *)
Lemma py_open_spec (path : string) (w : World) (st : Interp) :
  py_open path w st =
  ({| globals := globals st; trace := trace st ++ [Opened path] |},
   match files w path with
   | Some (Text content) => Ok (VFile path content)
   | Some Denied => Raise (PermissionError path)
   | None => Raise (FileNotFoundError path)
   end).
Proof.
  cbv [py_open stat emit mbind Py_bind bind ret raise].
  now destruct (files w path) as [[content|]|].
Qed.

Lemma run_depends_on_readme_only (w1 w2 : World) :
  files w1 "README.md" = files w2 "README.md" ->
  run setup_py w1 = run setup_py w2.
Proof. intros Heq. rewrite !run_setup_py, Heq. reflexivity. Qed.

Lemma metadata_fixed_but_long_description (c c' k : string) :
  k <> "long_description" ->
  kw_lookup k (metadata c) = kw_lookup k (metadata c').
Proof.
  intros Hk. unfold metadata, kw_lookup.
  repeat match goal with
  | |- context [String.eqb ?a k] =>
      destruct (String.eqb_spec a k); [first [reflexivity | congruence] |]
  end.
  reflexivity.
Qed.

(** C1, as stated, does not hold: in a working directory without README.md
    the script calls [setuptools.setup] zero times, not once; and the
    arguments are not all fixed, two README.md texts give two different
    calls. *)
Lemma setup_py_call_not_unconditional :
  setup_calls no_files = [] /\
  outcome no_files = Raise (FileNotFoundError "README.md") /\
  setup_calls (only_file "README.md" (Text "a")) <>
  setup_calls (only_file "README.md" (Text "b")).
Proof.
  split; [reflexivity | split; [reflexivity |]].
  vm_compute. intros Heq. discriminate Heq.
Qed.

(** C1 (amended): the script is only a packaging descriptor.  It calls
    [setuptools.setup] exactly once when README.md can be read and not at
    all otherwise; the keyword arguments are fixed but for
    [long_description], which is the text of README.md; it makes no other
    call; and the one name its namespace ends up with is the imported
    [setup]: no class and no function of its own. *)
Theorem setup_py_is_packaging_descriptor (w : World) :
  setup_calls w =
    match files w "README.md" with
    | Some (Text c) => [([], metadata c)]
    | _ => []
    end /\
  (forall c c' k, k <> "long_description" ->
     kw_lookup k (metadata c) = kw_lookup k (metadata c')) /\
  (forall c, kw_lookup "long_description" (metadata c) = Some (VStr c)) /\
  (forall q args kwargs,
     Called q args kwargs ∈ trace (run setup_py w).1 ->
     q = "setuptools.setup") /\
  globals (run setup_py w).1 = {[ "setup" := VBuiltin "setuptools.setup" ]} /\
  (forall id v, globals (run setup_py w).1 !! id = Some v ->
     defined_by_module v = false).
Proof.
  split; [| split; [| split; [| split; [| split]]]].
  - unfold setup_calls. rewrite run_setup_py.
    now destruct (files w "README.md") as [[c|]|].
  - intros c c' k. apply metadata_fixed_but_long_description.
  - reflexivity.
  - intros q args kwargs. rewrite run_setup_py.
    destruct (files w "README.md") as [[c|]|]; cbn; intros Hin;
      repeat (apply elem_of_cons in Hin as [Hin | Hin];
              [first [discriminate Hin | now injection Hin as -> _ _] |]);
      inversion Hin.
  - apply globals_after_run.
  - intros id v. rewrite globals_after_run. intros Hv.
    apply lookup_singleton_Some in Hv as [_ <-]. reflexivity.
Qed.

Lemma setup_py_is_packaging_descriptor_witness :
  setup_calls (only_file "README.md" (Text "# starlette_exporter")) =
    [([], metadata "# starlette_exporter")] /\
  kw_lookup "version" (metadata "one") = kw_lookup "version" (metadata "two").
Proof.
  pose proof (setup_py_is_packaging_descriptor
                (only_file "README.md" (Text "# starlette_exporter")))
    as (Hcalls & Hfixed & _).
  split.
  - exact Hcalls.
  - apply Hfixed. discriminate.
Defined.

(** C2: the call declares exactly two requirements, [prometheus_client]
    and [starlette], in that order, one for each of the two external
    collaborators (the metrics client library and the host web framework),
    and passes no other keyword that declares dependencies. *)
Theorem install_requires_two_collaborators (w : World) (args : list value)
    (kwargs : list (string * value)) :
  (args, kwargs) ∈ setup_calls w ->
  kw_lookup "install_requires" kwargs =
    Some (VList [VStr "prometheus_client"; VStr "starlette"]) /\
  declared_dependencies kwargs =
    [("install_requires", VList [VStr "prometheus_client"; VStr "starlette"])] /\
  kw_lookup "install_requires" kwargs =
    Some (VList (map (fun c => VStr (distribution_of c))
                     [MetricsClientLibrary; HostWebFramework])) /\
  (forall c1 c2, distribution_of c1 = distribution_of c2 -> c1 = c2).
Proof.
  intros Hin. apply setup_call_inv in Hin as (c & _ & _ & ->).
  repeat split.
  intros [] []; cbn; intros Heq; first [reflexivity | discriminate Heq].
Qed.

Lemma install_requires_two_collaborators_witness :
  kw_lookup "install_requires" (metadata "# starlette_exporter") =
    Some (VList [VStr "prometheus_client"; VStr "starlette"]) /\
  declared_dependencies (metadata "# starlette_exporter") =
    [("install_requires", VList [VStr "prometheus_client"; VStr "starlette"])].
Proof.
  pose proof (install_requires_two_collaborators
                (only_file "README.md" (Text "# starlette_exporter"))
                [] (metadata "# starlette_exporter")) as H.
  destruct H as (H1 & H2 & _).
  - vm_compute. constructor.
  - split; [exact H1 | exact H2].
Defined.

(** C9: when README.md is absent or cannot be read, the run ends in the
    error [open] raises there; the last thing the script did is that
    [open], and it called nothing: [setuptools.setup] is never reached. *)
Theorem readme_required (w : World) :
  (forall c, files w "README.md" <> Some (Text c)) ->
  exists e,
    outcome w = Raise e /\
    (forall st, (py_open "README.md" w st).2 = Raise e) /\
    (e = FileNotFoundError "README.md" \/ e = PermissionError "README.md") /\
    last (trace (run setup_py w).1) = Some (Opened "README.md") /\
    Forall (fun ev => is_call ev = false) (trace (run setup_py w).1) /\
    setup_calls w = [].
Proof.
  intros Hno. unfold outcome, setup_calls.
  rewrite run_setup_py.
  destruct (files w "README.md") as [[c|]|] eqn:Hf.
  - now destruct (Hno c).
  - exists (PermissionError "README.md").
    repeat split; auto.
    + intros st. now rewrite py_open_spec, Hf.
    + cbn. repeat constructor.
  - exists (FileNotFoundError "README.md").
    repeat split; auto.
    + intros st. now rewrite py_open_spec, Hf.
    + cbn. repeat constructor.
Qed.

Lemma readme_required_witness :
  exists e,
    outcome no_files = Raise e /\
    (forall st, (py_open "README.md" no_files st).2 = Raise e) /\
    (e = FileNotFoundError "README.md" \/ e = PermissionError "README.md") /\
    last (trace (run setup_py no_files).1) = Some (Opened "README.md") /\
    Forall (fun ev => is_call ev = false) (trace (run setup_py no_files).1) /\
    setup_calls no_files = [].
Proof.
  apply (readme_required no_files). intros c. vm_compute. discriminate.
Defined.

Example read_text_line_endings :
  read_text Latin1 [97; 13; 10; 98; 13; 99]%N =
  read_text Latin1 [97; 10; 98; 10; 99]%N.
Proof. reflexivity. Qed.

Example read_text_ascii (enc : codec) :
  read_text enc [35; 32; 82; 69; 65; 68; 77; 69]%N = "# README".
Proof. now destruct enc. Qed.

(** C10, as stated, does not hold: the same README.md, byte for byte, read
    by two processes whose locales differ in encoding, gives two different
    calls.  The byte A4 is the currency sign in ISO 8859-1 and the euro
    sign in ISO 8859-15. *)
Lemma setup_arguments_depend_on_locale :
  disk (readme_only Latin1 [164%N]) "README.md" =
  disk (readme_only Latin9 [164%N]) "README.md" /\
  setup_calls (text_view (readme_only Latin1 [164%N])) <>
  setup_calls (text_view (readme_only Latin9 [164%N])).
Proof.
  split; [reflexivity |].
  vm_compute. intros Heq. discriminate Heq.
Qed.

(** C10 (amended): the arguments of the call are a function of the text
    that [read()] returns for README.md, which is the file's bytes as the
    process's locale decodes them, and of nothing else.  Two runs that read
    the same text do the same, whatever else their working directories
    hold; the call has no positional argument and these keyword arguments,
    all constants but [long_description], which for a process is its
    decoding of the bytes of README.md. *)
Theorem setup_arguments_function_of_readme (w1 w2 : World) (c : string) :
  files w1 "README.md" = Some (Text c) ->
  files w2 "README.md" = Some (Text c) ->
  run setup_py w1 = run setup_py w2 /\
  setup_calls w2 = setup_calls w1 /\
  setup_calls w1 =
    [([],
      [ ("name", VStr "starlette_exporter");
        ("version", VStr "0.14.0");
        ("author", VStr "Stephen Hillier");
        ("author_email", VStr "stephenhillier@gmail.com");
        ("packages", VList [VStr "starlette_exporter"]);
        ("package_data",
          VDict [(VStr "starlette_exporter", VList [VStr "py.typed"])]);
        ("license", VStr "Apache License 2.0");
        ("url", VStr "https://github.com/stephenhillier/starlette_exporter");
        ("description",
          VStr "Prometheus metrics exporter for Starlette applications.");
        ("long_description", VStr c);
        ("long_description_content_type", VStr "text/markdown");
        ("install_requires",
          VList [VStr "prometheus_client"; VStr "starlette"]) ])] /\
  (forall p bytes,
     disk p "README.md" = Some (Bytes bytes) ->
     setup_calls (text_view p) =
       [([], metadata (read_text (encoding p) bytes))]).
Proof.
  intros H1 H2.
  assert (Hrun : run setup_py w1 = run setup_py w2)
    by (apply run_depends_on_readme_only; congruence).
  split; [exact Hrun | split; [| split]].
  - unfold setup_calls. now rewrite Hrun.
  - now rewrite (setup_calls_readable w1 c H1).
  - intros p bytes Hdisk. apply setup_calls_readable.
    cbn. now rewrite Hdisk.
Qed.

Lemma setup_arguments_function_of_readme_witness :
  run setup_py (only_file "README.md" (Text "# starlette_exporter")) =
  run setup_py (crowded "# starlette_exporter").
Proof.
  apply (setup_arguments_function_of_readme
           (only_file "README.md" (Text "# starlette_exporter"))
           (crowded "# starlette_exporter")
           "# starlette_exporter"); reflexivity.
Defined.

(** ** Facts about the package model *)

Import Exporter.

Section RegistryFacts.

Implicit Types (l : labels) (r : Registry) (v : Z).

Lemma counter_value_inc l r :
  counter_value l (inc l r) = S (counter_value l r).
Proof. unfold counter_value at 1, inc. cbn. now rewrite lookup_insert_eq. Qed.


Lemma counter_value_observe l l' v r :
  counter_value l' (observe l v r) = counter_value l' r.
Proof. reflexivity. Qed.

Lemma observations_observe l v r :
  observations l (observe l v r) = observations l r ++ [v].
Proof. unfold observations at 1, observe. cbn. now rewrite lookup_insert_eq. Qed.

Lemma observations_observe_ne l l' v r :
  l <> l' -> observations l' (observe l v r) = observations l' r.
Proof.
  intros Hne. unfold observations, observe. cbn.
  now rewrite lookup_insert_ne.
Qed.

Lemma observations_inc l l' r :
  observations l' (inc l r) = observations l' r.
Proof. reflexivity. Qed.

End RegistryFacts.

Section ExporterFacts.

Context {Exn : Type}.
Variable generate_latest : Registry -> string.

Implicit Types (call_next h : @Handler Exn) (app : @Application Exn).
Implicit Types (req : Request) (st : Host) (resp : Response) (e : Exn).

Lemma dispatch_ok call_next req st st1 resp :
  call_next req st = (st1, Ok resp) ->
  dispatch call_next req st =
  ({| clock := clock st1;
      registry :=
        observe (labels_of req resp) (clock st1 - clock st)
          (inc (labels_of req resp) (registry st1));
      api_calls :=
        api_calls st1 ++
        [CounterInc (labels_of req resp);
         HistogramObserve (labels_of req resp) (clock st1 - clock st)] |},
   Ok resp).
Proof.
  intros Hnext.
  cbv [dispatch mbind mret App_bind App_ret perf_counter counter_inc
       histogram_observe].
  rewrite Hnext. cbn. now rewrite <- app_assoc.
Qed.

Lemma dispatch_raise call_next req st st1 e :
  call_next req st = (st1, Raise e) ->
  dispatch call_next req st = (st1, Raise e).
Proof.
  intros Hnext.
  cbv [dispatch mbind mret App_bind App_ret perf_counter counter_inc
       histogram_observe].
  now rewrite Hnext.
Qed.

Lemma handle_metrics_spec req st :
  handle_metrics (Exn := Exn) generate_latest req st =
  ({| clock := clock st;
      registry := registry st;
      api_calls := api_calls st ++ [GenerateLatest] |},
   Ok {| status_code := 200;
         body := TextContent (generate_latest (registry st)) |}).
Proof. reflexivity. Qed.

Lemma serve_add_middleware (mw : @Handler Exn -> @Handler Exn) app :
  serve (add_middleware mw app) = mw (serve app).
Proof. reflexivity. Qed.

Lemma router_add_route path h app req :
  route req = path ->
  router (add_route path h app) req = h req.
Proof.
  intros Hpath. unfold router, add_route. cbn.
  now rewrite Hpath, lookup_insert_eq.
Qed.

Lemma router_add_route_ne path h app req :
  route req <> path ->
  router (add_route path h app) req = router app req.
Proof.
  intros Hpath. unfold router, add_route. cbn.
  rewrite lookup_insert_ne; [reflexivity | congruence].
Qed.

(** The middleware returns what the handler below it returned, response or
    exception. *)
Lemma dispatch_result call_next req st :
  (dispatch call_next req st).2 = (call_next req st).2.
Proof.
  destruct (call_next req st) as [st1 [resp | e]] eqn:Hnext.
  - now rewrite (dispatch_ok _ _ _ _ _ Hnext).
  - now rewrite (dispatch_raise _ _ _ _ _ Hnext).
Qed.



End ExporterFacts.

Section ExporterClaims.

Context {Exn : Type}.
Variable generate_latest : Registry -> string.

Implicit Types (call_next h : @Handler Exn) (app : @Application Exn).
Implicit Types (req : Request) (st : Host) (resp : Response) (e : Exn).

(** C3: the distribution [setup.py] describes ships the package
    [starlette_exporter].  The package exposes a middleware class and a
    request handler function, and the host consumes them through
    [add_middleware] and [add_route], which gives the installed
    application.  Registered, the middleware works as one: the application
    answers every request as it did before, response or failure, and each
    answer is counted.  Registered on a path, the handler works as an
    endpoint: the router answers that path with status 200 and the
    rendered metrics, and every other path as before. *)
Theorem package_exports_consumable (w : World) (c : string) app
    (path : string) req st :
  files w "README.md" = Some (Text c) ->
  route req = path ->
  (exists kwargs,
     setup_calls w = [([], kwargs)] /\
     kw_lookup "packages" kwargs = Some (VList [VStr "starlette_exporter"])) /\
  foldr (consume path) app (package_exports generate_latest) =
    install generate_latest path app /\
  (forall req' st',
     (serve (add_middleware dispatch app) req' st').2 =
     (serve app req' st').2) /\
  (forall req' st' st1 resp,
     serve app req' st' = (st1, Ok resp) ->
     counter_value (labels_of req' resp)
       (registry (serve (add_middleware dispatch app) req' st').1) =
     S (counter_value (labels_of req' resp) (registry st1))) /\
  router (add_route path (handle_metrics generate_latest) app) req st =
    ({| clock := clock st;
        registry := registry st;
        api_calls := api_calls st ++ [GenerateLatest] |},
     Ok {| status_code := 200;
           body := TextContent (generate_latest (registry st)) |}) /\
  (forall req',
     route req' <> path ->
     router (add_route path (handle_metrics generate_latest) app) req' =
     router app req').
Proof.
  intros Hreadme Hpath.
  split; [| split; [| split; [| split; [| split]]]].
  - exists (metadata c). split; [now apply setup_calls_readable | reflexivity].
  - reflexivity.
  - intros req' st'. rewrite serve_add_middleware. apply dispatch_result.
  - intros req' st' st1 resp Hserve.
    rewrite serve_add_middleware, (dispatch_ok _ _ _ _ _ Hserve). cbn.
    now rewrite counter_value_observe, counter_value_inc.
  - rewrite (router_add_route _ _ _ _ Hpath). apply handle_metrics_spec.
  - intros req'. apply router_add_route_ne.
Qed.

(** C6: the package has no command line, no file format and no wire format
    of its own.  The call of [setup] passes neither [entry_points] nor
    [scripts], so it asks for no console script; the one data file it ships
    is the marker py.typed.  On the wire, the middleware returns what the
    application below it returned, unchanged, and the body of the metrics
    endpoint is the output of the library's renderer as it is, got by one
    call to it. *)
Theorem no_bespoke_format_or_cli (w : World) (args : list value)
    (kwargs : list (string * value)) call_next req st :
  (args, kwargs) ∈ setup_calls w ->
  kw_lookup "entry_points" kwargs = None /\
  kw_lookup "scripts" kwargs = None /\
  declared_scripts kwargs = [] /\
  package_data_items kwargs =
    [(VStr "starlette_exporter", VList [VStr "py.typed"])] /\
  (dispatch call_next req st).2 = (call_next req st).2 /\
  (handle_metrics (Exn := Exn) generate_latest req st).2 =
    Ok {| status_code := 200;
          body := TextContent (generate_latest (registry st)) |} /\
  api_calls (handle_metrics (Exn := Exn) generate_latest req st).1 =
    api_calls st ++ [GenerateLatest].
Proof.
  intros Hin. apply setup_call_inv in Hin as (c & _ & _ & ->).
  split; [reflexivity |]. split; [reflexivity |]. split; [reflexivity |].
  split; [reflexivity |]. split; [apply dispatch_result |].
  now rewrite handle_metrics_spec.
Qed.

(** C4: a request that the middleware passes on and that comes back with a
    response is returned as it is; the middleware has then made exactly two
    calls into the metrics library, one counter increment and one
    histogram observation, both under (method, route, status), the
    observation being the clock at the response minus the clock at the
    arrival.  The metrics endpoint makes one call, to the renderer, and
    its body is what the renderer returned. *)
Theorem request_timed_and_recorded call_next req st st1 resp :
  call_next req st = (st1, Ok resp) ->
  let l := (method req, route req, status_code resp) in
  let elapsed := (clock st1 - clock st)%Z in
  let after := (dispatch call_next req st).1 in
  (dispatch call_next req st).2 = Ok resp /\
  api_calls after = api_calls st1 ++ [CounterInc l; HistogramObserve l elapsed] /\
  registry after = observe l elapsed (inc l (registry st1)) /\
  counter_value l (registry after) = S (counter_value l (registry st1)) /\
  observations l (registry after) = observations l (registry st1) ++ [elapsed] /\
  (forall req' st',
     (handle_metrics (Exn := Exn) generate_latest req' st').2 =
       Ok {| status_code := 200;
             body := TextContent (generate_latest (registry st')) |} /\
     api_calls (handle_metrics (Exn := Exn) generate_latest req' st').1 =
       api_calls st' ++ [GenerateLatest] /\
     registry (handle_metrics (Exn := Exn) generate_latest req' st').1 =
       registry st') /\
  (forall app path req',
     route req' = path ->
     router (add_route path (handle_metrics generate_latest) app) req' =
       handle_metrics generate_latest req').
Proof.
  intros Hnext l elapsed after. subst after.
  rewrite (dispatch_ok _ _ _ _ _ Hnext). cbn.
  fold (labels_of req resp). change (method req, route req, status_code resp)
    with (labels_of req resp) in l. subst l elapsed.
  repeat split.
  - now rewrite counter_value_observe, counter_value_inc.
  - now rewrite observations_observe, observations_inc.
  - intros app path req'. apply router_add_route.
Qed.

(** C5: the middleware fails exactly when the handler below it fails, and
    then with the handler's own exception; the same holds for an
    application once the middleware is registered; and the metrics
    endpoint does not fail.  The model has no exception of its own: it is
    generic in the host's. *)
Theorem downstream_failure_propagates_unchanged call_next app req st e :
  (call_next req st).2 = Raise e ->
  (dispatch call_next req st).2 = Raise e /\
  (forall e', (dispatch call_next req st).2 = Raise e' -> e' = e) /\
  (forall e', (serve (add_middleware dispatch app) req st).2 = Raise e' <->
              (serve app req st).2 = Raise e') /\
  (forall e' req' st',
     (handle_metrics (Exn := Exn) generate_latest req' st').2 <> Raise e').
Proof.
  intros Hfail.
  destruct (call_next req st) as [st1 [resp | e0]] eqn:Hnext;
    cbn in Hfail; [discriminate Hfail |].
  injection Hfail as ->.
  rewrite (dispatch_raise _ _ _ _ _ Hnext).
  split; [reflexivity | split; [| split]].
  - intros e' He'. cbn in He'. now injection He'.
  - intros e'. rewrite serve_add_middleware.
    destruct (serve app req st) as [st2 [resp | e2]] eqn:Hserve.
    + now rewrite (dispatch_ok _ _ _ _ _ Hserve).
    + now rewrite (dispatch_raise _ _ _ _ _ Hserve).
  - intros e' req' st'. rewrite handle_metrics_spec. discriminate.
Qed.


End ExporterClaims.

(** ** The claims on the sample host *)

Lemma package_exports_consumable_witness :
  foldr (consume "/metrics") sample_app (package_exports sample_render) =
    install sample_render "/metrics" sample_app /\
  router (add_route "/metrics" (handle_metrics sample_render) sample_app)
         get_metrics idle =
    ({| clock := clock idle;
        registry := registry idle;
        api_calls := api_calls idle ++ [GenerateLatest] |},
     Ok {| status_code := 200;
           body := TextContent (sample_render (registry idle)) |}).
Proof.
  pose proof (package_exports_consumable sample_render
                (only_file "README.md" (Text "# starlette_exporter"))
                "# starlette_exporter" sample_app "/metrics" get_metrics idle
                eq_refl eq_refl) as (_ & Hinstall & _ & _ & Hroute & _).
  split; [exact Hinstall | exact Hroute].
Defined.

Lemma no_bespoke_format_or_cli_witness :
  declared_scripts (metadata "# starlette_exporter") = [] /\
  (dispatch hello get_hello idle).2 = (hello get_hello idle).2 /\
  (handle_metrics (Exn := string) sample_render get_metrics idle).2 =
    Ok {| status_code := 200;
          body := TextContent (sample_render (registry idle)) |}.
Proof.
  pose proof (no_bespoke_format_or_cli sample_render
                (only_file "README.md" (Text "# starlette_exporter"))
                [] (metadata "# starlette_exporter")
                hello get_hello idle) as H.
  destruct H as (_ & _ & Hscripts & _ & Hwire & _).
  - vm_compute. constructor.
  - split; [exact Hscripts | split; [exact Hwire |]].
    pose proof (no_bespoke_format_or_cli sample_render
                  (only_file "README.md" (Text "# starlette_exporter"))
                  [] (metadata "# starlette_exporter")
                  hello get_metrics idle) as H.
    destruct H as (_ & _ & _ & _ & _ & Hbody & _).
    + vm_compute. constructor.
    + exact Hbody.
Defined.

Lemma request_timed_and_recorded_witness :
  (dispatch hello get_hello idle).2 = Ok hello_response /\
  api_calls (dispatch hello get_hello idle).1 =
    [CounterInc ("GET", "/hello", 200);
     HistogramObserve ("GET", "/hello", 200) 3].
Proof.
  pose proof (request_timed_and_recorded sample_render hello get_hello idle
                (elapse 3 idle) hello_response eq_refl) as (Hresp & Hcalls & _).
  split; [exact Hresp | exact Hcalls].
Defined.

Lemma downstream_failure_propagates_unchanged_witness :
  (dispatch broken get_broken idle).2 = Raise "boom".
Proof.
  pose proof (downstream_failure_propagates_unchanged sample_render broken
                sample_app get_broken idle "boom" eq_refl) as (Hraise & _).
  exact Hraise.
Defined.



(** ** Further facts about setup.py *)

(** X1: whatever the working directory holds, the only path the script
    opens is README.md, once; it reads that file, once, exactly when the
    open succeeded, and nothing else. *)
Theorem script_opens_only_readme (w : World) :
  opened_paths (trace (run setup_py w).1) = ["README.md"] /\
  read_paths (trace (run setup_py w).1) =
    (if readable w "README.md" then ["README.md"] else []).
Proof.
  unfold readable. rewrite run_setup_py.
  destruct (files w "README.md") as [[c|]|]; split; reflexivity.
Qed.

(** X4: in every call the script makes, the metadata is consistent with
    itself: each package that [package_data] gives files for is one that
    [packages] lists, the distribution is named after its one package, and
    the data file shipped for it is py.typed. *)
Theorem package_data_names_declared_package (w : World) (args : list value)
    (kwargs : list (string * value)) :
  (args, kwargs) ∈ setup_calls w ->
  Forall (fun item => item.1 ∈ declared_packages kwargs)
         (package_data_items kwargs) /\
  (exists n, kw_lookup "name" kwargs = Some n /\
             declared_packages kwargs = [n]) /\
  package_data_items kwargs =
    [(VStr "starlette_exporter", VList [VStr "py.typed"])].
Proof.
  intros Hin. apply setup_call_inv in Hin as (c & _ & _ & ->).
  split; [| split].
  - cbn. repeat constructor.
  - exists (VStr "starlette_exporter"). split; reflexivity.
  - reflexivity.
Qed.

Lemma package_data_names_declared_package_witness :
  Forall (fun item => item.1 ∈ declared_packages (metadata ""))
         (package_data_items (metadata "")) /\
  package_data_items (metadata "") =
    [(VStr "starlette_exporter", VList [VStr "py.typed"])].
Proof.
  pose proof (package_data_names_declared_package
                (only_file "README.md" (Text "")) [] (metadata "")) as H.
  destruct H as (Hsub & _ & Hitems).
  - vm_compute. constructor.
  - split; [exact Hsub | exact Hitems].
Defined.
